(** * modern-python-dev-setup: the post-generation hook and the greeting module

    A shallow embedding of the programs of the template that have behaviour
    of their own:

    - [hooks/post_gen_project.py]: [main], which runs
      [pre-commit install --install-hooks] and reports the result;
    - [{{cookiecutter.project_slug}}/main.py]: [greet];
    - [{{cookiecutter.project_slug}}/my_cli.py]: the Typer command [hello];
    - [my_package/my_cli.py]: the Typer command [minimal].

    Python code that raises, prints and spawns a child is modelled in a small
    monad over the trace of the events the process has produced.  The world
    around the process says how each attempt to run a program ends, what
    standard output does with a text it is given, whether it is a terminal,
    and whether the flush the interpreter makes on its way out succeeds. *)

From Stdlib Require Import ZArith String Ascii List Bool Arith DecimalString.
Import ListNotations.
Local Open Scope Z_scope.
Local Open Scope list_scope.
Local Open Scope string_scope.

(* ===================================================================== *)
(** ** Strings *)
(* ===================================================================== *)

Module Text.

(** The line feed that [print] and [echo] put after their text. *)
Definition LF : string := String (ascii_of_nat 10) EmptyString.

(** [sep.join(parts)]. *)
Fixpoint join (sep : string) (parts : list string) : string :=
  match parts with
  | [] => EmptyString
  | [p] => p
  | p :: rest => p ++ sep ++ join sep rest
  end.

(** [needle in hay]: does [needle] occur in [hay] as a substring? *)
Fixpoint contains (needle hay : string) : bool :=
  prefix needle hay ||
  match hay with
  | EmptyString => false
  | String _ rest => contains needle rest
  end.

(** [str(n)] and [%d] for an integer. *)
Definition decimal (z : Z) : string := NilZero.string_of_int (Z.to_int z).

End Text.

(* ===================================================================== *)
(** ** The Python runtime the programs rely on *)
(* ===================================================================== *)

Module Py.

(** The exception classes that can reach the programs, with their bases. *)
Inductive exc_class : Set :=
| cls_BaseException
| cls_SystemExit
| cls_Exception
| cls_OSError
| cls_FileNotFoundError
| cls_PermissionError
| cls_SubprocessError
| cls_CalledProcessError
| cls_ValueError
| cls_UnicodeError
| cls_UnicodeEncodeError.

Definition base (c : exc_class) : option exc_class :=
  match c with
  | cls_BaseException => None
  | cls_SystemExit => Some cls_BaseException
  | cls_Exception => Some cls_BaseException
  | cls_OSError => Some cls_Exception
  | cls_FileNotFoundError => Some cls_OSError
  | cls_PermissionError => Some cls_OSError
  | cls_SubprocessError => Some cls_Exception
  | cls_CalledProcessError => Some cls_SubprocessError
  | cls_ValueError => Some cls_Exception
  | cls_UnicodeError => Some cls_ValueError
  | cls_UnicodeEncodeError => Some cls_UnicodeError
  end.

Definition exc_class_eqb (c d : exc_class) : bool :=
  match c, d with
  | cls_BaseException, cls_BaseException
  | cls_SystemExit, cls_SystemExit
  | cls_Exception, cls_Exception
  | cls_OSError, cls_OSError
  | cls_FileNotFoundError, cls_FileNotFoundError
  | cls_PermissionError, cls_PermissionError
  | cls_SubprocessError, cls_SubprocessError
  | cls_CalledProcessError, cls_CalledProcessError
  | cls_ValueError, cls_ValueError
  | cls_UnicodeError, cls_UnicodeError
  | cls_UnicodeEncodeError, cls_UnicodeEncodeError => true
  | _, _ => false
  end.

(** The class and its bases, nearest first.  The hierarchy is five levels
    deep, so four steps reach [BaseException] from every class. *)
Fixpoint ancestors (depth : nat) (c : exc_class) : list exc_class :=
  c :: match depth, base c with
       | S d, Some b => ancestors d b
       | _, _ => []
       end.

Definition issubclass (c d : exc_class) : bool :=
  existsb (exc_class_eqb d) (ancestors 4 c).

(** Exception objects.  [StreamError] is the [OSError], without a file
    name, of a write or flush of a standard stream that the operating
    system refused; [UnicodeEncodeError] is given by the message of the
    codec that raised it. *)
Inductive exn : Type :=
| CalledProcessError (returncode : Z) (cmd : list string)
| OSError (errno : Z) (strerror : string) (filename : string)
| SystemExit (code : Z)
| UnicodeEncodeError (message : string)
| StreamError (errno : Z) (strerror : string).

Definition ENOENT : Z := 2.
Definition EPERM : Z := 1.
Definition EACCES : Z := 13.

(** [type(e)].  The constructor of [OSError] picks the subclass from the
    error number; the subclasses other than these two are not told apart
    from [OSError] here, no handler of the programs names them. *)
Definition class_of (e : exn) : exc_class :=
  match e with
  | CalledProcessError _ _ => cls_CalledProcessError
  | OSError errno _ _ =>
      if (errno =? ENOENT)%Z then cls_FileNotFoundError
      else if ((errno =? EPERM) || (errno =? EACCES))%Z then cls_PermissionError
      else cls_OSError
  | SystemExit _ => cls_SystemExit
  | UnicodeEncodeError _ => cls_UnicodeEncodeError
  | StreamError _ _ => cls_OSError
  end.

Definition isinstance (e : exn) (c : exc_class) : bool :=
  issubclass (class_of e) c.

(** The exceptions a write to a standard stream raises. *)
Definition is_stream_error (e : exn) : bool :=
  match e with
  | UnicodeEncodeError _ | StreamError _ _ => true
  | _ => false
  end.

(** What an observer of the process sees, in order. *)
Inductive event : Type :=
| Popen (args : list string)      (* an attempt to start a child process *)
| Stdout (text : string)          (* text one call put on standard output *)
| Traceback (e : exn).            (* the interpreter's report of an uncaught exception, on standard error *)

Definition trace : Type := list event.

(** How an attempt to run a program ends. *)
Inductive spawn_result : Type :=
| Exited (returncode : Z)
    (* the child ran and [wait] gave this return code: its exit status,
       or minus the number of the signal that killed it *)
| ExecFailed (errno : Z) (strerror : string).
    (* no child program ran: the executable was not found on the search
       path, or could not be executed *)

(** What becomes of a text handed to [sys.stdout.write]. *)
Inductive write_result : Type :=
| Accepted
    (* the stream took the text *)
| Unencodable (message : string)
    (* the encoding of the stream has no bytes for some character of the
       text: [UnicodeEncodeError], nothing of the text is written *)
| Refused (errno : Z) (strerror : string).
    (* the operating system refused the bytes: [OSError] *)

(** The world around the process.  Applied to what the process has done so
    far and an argument vector, it says how the attempt to run that program
    ends. *)
Record world : Type := {
  spawn :> trace -> list string -> spawn_result;
  stdout_write : string -> write_result;
  stdout_isatty : bool;
  exit_flush : bool
    (* the flush of the standard streams that the interpreter makes on its
       way out succeeds *)
}.

(** The result of a Python call: a value, or an exception on its way up. *)
Inductive result (A : Type) : Type :=
| Return (a : A)
| Raise (e : exn).
Arguments Return {A} a.
Arguments Raise {A} e.

(** A Python computation. *)
Definition M (A : Type) : Type := world -> trace -> result A * trace.

Definition ret {A} (a : A) : M A := fun _ t => (Return a, t).

Definition bind {A B} (m : M A) (k : A -> M B) : M B :=
  fun w t =>
    match m w t with
    | (Return a, t') => k a w t'
    | (Raise e, t') => (Raise e, t')
    end.

Definition raise {A} (e : exn) : M A := fun _ t => (Raise e, t).

Definition emit (ev : event) : M unit := fun _ t => (Return tt, (t ++ [ev])%list).

(** [try: body  except cls as e: handler(e)]. *)
Definition try_except {A} (body : M A) (cls : exc_class) (handler : exn -> M A) : M A :=
  fun w t =>
    match body w t with
    | (Return a, t') => (Return a, t')
    | (Raise e, t') =>
        if isinstance e cls then handler e w t' else (Raise e, t')
    end.

(** The exception a write raises, if it does. *)
Definition write_error (r : write_result) : option exn :=
  match r with
  | Accepted => None
  | Unencodable message => Some (UnicodeEncodeError message)
  | Refused errno strerror => Some (StreamError errno strerror)
  end.

Definition accepted (r : write_result) : bool :=
  match r with
  | Accepted => true
  | _ => false
  end.


(** The texts [print] hands to the stream, one write each: the objects with
    a space between them, then the line feed. *)
Fixpoint print_writes (objects : list string) : list string :=
  match objects with
  | [] => [Text.LF]
  | [o] => [o; Text.LF]
  | o :: rest => o :: " " :: print_writes rest
  end.

(** Writing texts in order until the stream does not take one: what went
    through, and the exception that stopped it. *)
Fixpoint write_each (device : string -> write_result) (texts : list string)
    : string * option exn :=
  match texts with
  | [] => (EmptyString, None)
  | text :: rest =>
      match write_error (device text) with
      | None =>
          let (written, failure) := write_each device rest in
          (text ++ written, failure)
      | Some e => (EmptyString, Some e)
      end
  end.

(** The trace after a call put [written] on standard output. *)
Definition put (t : trace) (written : string) : trace :=
  match written with
  | EmptyString => t
  | _ => (t ++ [Stdout written])%list
  end.

(** [print] of several objects, each already turned into a string.  A write
    that fails ends the call with its exception; what the earlier writes
    put on the stream stays there. *)
Definition print (objects : list string) : M unit :=
  fun w t =>
    let (written, failure) := write_each (stdout_write w) (print_writes objects) in
    match failure with
    | None => (Return tt, put t written)
    | Some e => (Raise e, put t written)
    end.

(** [sys.exit(code)] for an integer code. *)
Definition sys_exit {A} (code : Z) : M A := raise (SystemExit code).

(** [subprocess.call(args)]: start the program, wait for it, return its
    return code; [Popen] raises [OSError] when the program cannot be
    executed. *)
Definition call (args : list string) : M Z :=
  fun w t =>
    let t' := (t ++ [Popen args])%list in
    match w t args with
    | Exited returncode => (Return returncode, t')
    | ExecFailed errno strerror =>
        (Raise (OSError errno strerror (hd EmptyString args)), t')
    end.

(** [subprocess.check_call(args)]. *)
Definition check_call (args : list string) : M Z :=
  bind (call args) (fun retcode =>
    if negb (retcode =? 0)%Z
    then raise (CalledProcessError retcode args)
    else ret 0).

(** The exit status the parent sees: 120 when the flush on the way out
    fails, else the low eight bits of the status the interpreter chose. *)
Definition leave (w : world) (status : Z) : Z :=
  if exit_flush w then status mod 256 else 120.

(** Running a script as the main program: the interpreter chooses status 0
    when the module body returns, the code of a [SystemExit], and 1 after
    the traceback of any other exception. *)
Definition run_script (body : M unit) (w : world) : trace * Z :=
  match body w [] with
  | (Return _, t) => (t, leave w 0)
  | (Raise e, t) =>
      match e with
      | SystemExit code => (t, leave w code)
      | _ => ((t ++ [Traceback e])%list, leave w 1)
      end
  end.

(** Everything written to standard output, in order. *)
Fixpoint stdout_of (t : trace) : list string :=
  match t with
  | [] => []
  | Stdout text :: rest => text :: stdout_of rest
  | _ :: rest => stdout_of rest
  end.

(** The argument vectors of the child processes started, in order. *)
Fixpoint popen_calls (t : trace) : list (list string) :=
  match t with
  | [] => []
  | Popen args :: rest => args :: popen_calls rest
  | _ :: rest => popen_calls rest
  end.

(** With an argument list and no shell, the program name is looked up on
    the search path exactly when it has no slash in it. *)
Definition searched_on_path (program : string) : bool :=
  negb (Text.contains "/" program).

(** Standard output takes every one of the texts. *)
Definition accepts (w : world) (texts : list string) : bool :=
  forallb (fun text => accepted (stdout_write w text)) texts.

End Py.

Module PyNotations.
Notation "x <- m ;; k" := (Py.bind m (fun x => k))
  (at level 61, m at next level, right associativity).
Notation "m ;; k" := (Py.bind m (fun _ => k))
  (at level 61, right associativity).
End PyNotations.

(* ===================================================================== *)
(** ** hooks/post_gen_project.py *)
(* ===================================================================== *)

Module PostGenProject.
Import Py PyNotations.

(** The argument list given to [check_call]. *)
Definition COMMAND : list string := ["pre-commit"; "install"; "--install-hooks"].

Section Hook.

(** [str(e)], which [print] applies to the exception it is given. *)
Variable str : exn -> string.

Definition main : M unit :=
  try_except
    (check_call COMMAND ;;
     print ["✅ pre-commit hooks installed"])
    cls_CalledProcessError
    (fun e =>
       print ["❌ pre-commit install failed:"; str e] ;;
       sys_exit 1).

(** [if __name__ == "__main__": main()]. *)
Definition script : world -> trace * Z := run_script main.

End Hook.

End PostGenProject.

(** *** How CPython renders the exceptions

    [main] hands the exception to [print] and never looks inside it, so the
    theorems below hold for every rendering.  This is the one CPython has,
    for an argument vector of plain words (printable ASCII without quote or
    backslash, as the hook's is); it is used to run the hook on concrete
    worlds. *)

Module Rendering.
Import Py.

(** [repr] of a plain word, and of a list of them. *)
Definition repr_word (s : string) : string := "'" ++ s ++ "'".

Definition repr_list (l : list string) : string :=
  "[" ++ Text.join ", " (map repr_word l) ++ "]".

(** [signal.Signals(n).name] on Linux (x86 and ARM numbering). *)
Definition linux_signal (n : Z) : option string :=
  match n with
  | 1 => Some "SIGHUP"     | 2 => Some "SIGINT"     | 3 => Some "SIGQUIT"
  | 4 => Some "SIGILL"     | 5 => Some "SIGTRAP"    | 6 => Some "SIGABRT"
  | 7 => Some "SIGBUS"     | 8 => Some "SIGFPE"     | 9 => Some "SIGKILL"
  | 10 => Some "SIGUSR1"   | 11 => Some "SIGSEGV"   | 12 => Some "SIGUSR2"
  | 13 => Some "SIGPIPE"   | 14 => Some "SIGALRM"   | 15 => Some "SIGTERM"
  | 16 => Some "SIGSTKFLT" | 17 => Some "SIGCHLD"   | 18 => Some "SIGCONT"
  | 19 => Some "SIGSTOP"   | 20 => Some "SIGTSTP"   | 21 => Some "SIGTTIN"
  | 22 => Some "SIGTTOU"   | 23 => Some "SIGURG"    | 24 => Some "SIGXCPU"
  | 25 => Some "SIGXFSZ"   | 26 => Some "SIGVTALRM" | 27 => Some "SIGPROF"
  | 28 => Some "SIGWINCH"  | 29 => Some "SIGIO"     | 30 => Some "SIGPWR"
  | 31 => Some "SIGSYS"    | 34 => Some "SIGRTMIN"  | 64 => Some "SIGRTMAX"
  | _ => None
  end%Z.

Section Str.

(** [signal.Signals(n).name], when the platform has a signal [n]. *)
Variable signal_name : Z -> option string.

Definition str (e : exn) : string :=
  match e with
  | CalledProcessError returncode cmd =>
      if (returncode <? 0)%Z then
        match signal_name (- returncode) with
        | Some name =>
            "Command '" ++ repr_list cmd ++ "' died with <Signals." ++ name
              ++ ": " ++ Text.decimal (- returncode) ++ ">."
        | None =>
            "Command '" ++ repr_list cmd ++ "' died with unknown signal "
              ++ Text.decimal (- returncode) ++ "."
        end
      else
        "Command '" ++ repr_list cmd ++ "' returned non-zero exit status "
          ++ Text.decimal returncode ++ "."
  | OSError errno strerror filename =>
      "[Errno " ++ Text.decimal errno ++ "] " ++ strerror ++ ": " ++ repr_word filename
  | SystemExit code => Text.decimal code
  | UnicodeEncodeError message => message
  | StreamError errno strerror =>
      "[Errno " ++ Text.decimal errno ++ "] " ++ strerror
  end.

End Str.

(** The rendering on Linux. *)
Definition cpython : exn -> string := str linux_signal.

End Rendering.

(* ===================================================================== *)
(** ** src/{{cookiecutter.project_slug}}/main.py *)
(* ===================================================================== *)

Module ProjectMain.

(** A formatted string literal: literal text and replacement fields; a
    field holding a string stands for the string itself. *)
Inductive fpart : Type :=
| Lit (text : string)
| Field (value : string).

Fixpoint fstring (parts : list fpart) : string :=
  match parts with
  | [] => EmptyString
  | Lit text :: rest => text ++ fstring rest
  | Field value :: rest => value ++ fstring rest
  end.

Definition greet (name : string) : string :=
  fstring [Lit "Hello, "; Field name; Lit "!"].

End ProjectMain.

(* ===================================================================== *)
(** ** tests/test_main.py *)
(* ===================================================================== *)

Module TestMain.
Import ProjectMain.

(** The assertion of [test_greet]. *)
Definition test_greet : bool :=
  (greet "Developer" =? "Hello, Developer!")%string.

End TestMain.

(* ===================================================================== *)
(** ** What [typer.echo] does to its message *)
(* ===================================================================== *)

(** [typer.echo] is Click's [echo].  When standard output is not a terminal
    it removes the ANSI escape sequences from the text: every match of
    [ESC "[" [;?0-9]* [a-zA-Z]], leftmost first. *)

Module Click.

Definition ESC : ascii := ascii_of_nat 27.

Definition is_ESC (c : ascii) : bool := Ascii.eqb c ESC.

Definition is_letter (c : ascii) : bool :=
  let n := nat_of_ascii c in
  ((65 <=? n) && (n <=? 90) || (97 <=? n) && (n <=? 122))%nat.

(** A character of the class [;?0-9]. *)
Definition is_parameter (c : ascii) : bool :=
  let n := nat_of_ascii c in
  ((48 <=? n) && (n <=? 57) || (n =? 59) || (n =? 63))%nat.

(** The length of a match of [[;?0-9]*[a-zA-Z]] at the start of the text.
    No letter is in the class, so the first character outside the class
    decides. *)
Fixpoint sequence_tail (s : string) : option nat :=
  match s with
  | EmptyString => None
  | String c rest =>
      if is_letter c then Some 1%nat
      else if is_parameter c then option_map S (sequence_tail rest)
      else None
  end.

(** The length of what follows an ESC, when the two make an escape
    sequence. *)
Definition sequence_length (s : string) : option nat :=
  match s with
  | String c rest =>
      if Ascii.eqb c "["%char then option_map S (sequence_tail rest) else None
  | EmptyString => None
  end.

(** [strip_ansi], with the number of characters still to drop. *)
Fixpoint strip_from (skip : nat) (s : string) : string :=
  match s with
  | EmptyString => EmptyString
  | String c rest =>
      match skip with
      | S k => strip_from k rest
      | O =>
          if is_ESC c then
            match sequence_length rest with
            | Some n => strip_from n rest
            | None => String c (strip_from 0 rest)
            end
          else String c (strip_from 0 rest)
      end
  end.



End Click.

(* ===================================================================== *)
(** ** src/{{cookiecutter.project_slug}}/my_cli.py *)
(* ===================================================================== *)

Module MyCli.
Import Py ProjectMain.



End MyCli.

(* ===================================================================== *)
(** ** src/my_package/my_cli.py *)
(* ===================================================================== *)

Module PackageCli.
Import Py ProjectMain.

(** The command [minimal]: the built-in [print] of one formatted string. *)
Definition minimal (item : string) : M unit :=
  print [fstring [Lit "Item: "; Field item]].

End PackageCli.

(* ===================================================================== *)
(** ** src/{{cookiecutter.project_slug}}/main.py, run as a script *)
(* ===================================================================== *)

Module ProjectMainScript.
Import Py ProjectMain.

(** The body under [if __name__ == "__main__":]. *)
Definition entry : M unit := print [greet "World"].

Definition script : world -> trace * Z := run_script entry.

End ProjectMainScript.

(* ===================================================================== *)
(** ** What a run of the hook shows to its caller *)
(* ===================================================================== *)

Module Report.
Import Py.

(** The indicators the two messages of the hook start with. *)
Definition SUCCESS_MARK : string := "✅".
Definition FAILURE_MARK : string := "❌".

Definition success_marked (text : string) : bool := prefix SUCCESS_MARK text.
Definition failure_marked (text : string) : bool := prefix FAILURE_MARK text.

(** The two lines the hook can write. *)
Definition success_line : string :=
  "✅ pre-commit hooks installed" ++ Text.LF.

Definition failure_line (detail : string) : string :=
  "❌ pre-commit install failed: " ++ detail ++ Text.LF.

(** The installation succeeded: the tool ran and its return code is 0. *)
Definition installation_succeeded (r : spawn_result) : bool :=
  match r with
  | Exited returncode => (returncode =? 0)%Z
  | ExecFailed _ _ => false
  end.

(** The two outcomes of the specification, on what a run shows: the trace
    and the exit status. *)
Definition success_outcome (run : trace * Z) : bool :=
  existsb success_marked (stdout_of (fst run)) && (snd run =? 0)%Z.

Definition failure_outcome (run : trace * Z) : bool :=
  existsb failure_marked (stdout_of (fst run)) && negb (snd run =? 0)%Z.

(** Standard output takes what the hook prints on success, and what it
    prints on failure with the given detail. *)
Definition takes_success (w : world) : bool :=
  accepts w (print_writes ["✅ pre-commit hooks installed"]).

Definition takes_failure (w : world) (detail : string) : bool :=
  accepts w (print_writes ["❌ pre-commit install failed:"; detail]).

End Report.

(* ===================================================================== *)
(** ** A standard output in the ASCII encoding *)
(* ===================================================================== *)

(** Strings here are the UTF-8 bytes of Python's text.  The ASCII codec
    takes a text whose characters are all below 128 and otherwise raises
    [UnicodeEncodeError] for the first run of characters it has no bytes
    for. *)

Module Codec.
Import Py.

Definition byte (c : ascii) : Z := Z.of_nat (nat_of_ascii c).

Definition is_ascii (c : ascii) : bool := (byte c <? 128)%Z.

(** The first byte of the encoding of a character above 127. *)
Definition is_lead (c : ascii) : bool := (192 <=? byte c)%Z.

(** The number of characters before the first one above 127. *)
Fixpoint ascii_prefix (s : string) : Z :=
  match s with
  | EmptyString => 0
  | String c rest => if is_ascii c then 1 + ascii_prefix rest else 0
  end%Z.

(** The text from its first character above 127 on. *)
Fixpoint from_non_ascii (s : string) : string :=
  match s with
  | EmptyString => EmptyString
  | String c rest => if is_ascii c then from_non_ascii rest else s
  end.

(** The number of characters in the run of characters above 127 that the
    text starts with. *)
Fixpoint run_length (s : string) : Z :=
  match s with
  | EmptyString => 0
  | String c rest =>
      if is_ascii c then 0
      else (if is_lead c then 1 else 0) + run_length rest
  end%Z.

(** The code point whose UTF-8 encoding the text starts with: two, three
    or four bytes. *)
Definition code_point (s : string) : Z :=
  match s with
  | String b0 (String b1 rest) =>
      if (byte b0 <? 224)%Z then (byte b0 - 192) * 64 + (byte b1 - 128)
      else
        match rest with
        | String b2 rest' =>
            if (byte b0 <? 240)%Z then
              (byte b0 - 224) * 4096 + (byte b1 - 128) * 64 + (byte b2 - 128)
            else
              match rest' with
              | String b3 _ =>
                  (byte b0 - 240) * 262144 + (byte b1 - 128) * 4096
                  + (byte b2 - 128) * 64 + (byte b3 - 128)
              | EmptyString => 0
              end
        | EmptyString => 0
        end
  | _ => 0
  end%Z.

Definition hex_digit (n : Z) : ascii :=
  ascii_of_nat (Z.to_nat (if (n <? 10)%Z then 48 + n else 87 + n)%Z).

(** [%0<width>x]. *)
Fixpoint hex (width : nat) (n : Z) : string :=
  match width with
  | O => EmptyString
  | S k => hex k (n / 16) ++ String (hex_digit (n mod 16)) EmptyString
  end.

(** The character as the message of the exception shows it. *)
Definition escaped (cp : Z) : string :=
  if (cp <=? 255)%Z then "\x" ++ hex 2 cp
  else if (cp <=? 65535)%Z then "\u" ++ hex 4 cp
  else "\U" ++ hex 8 cp.

(** [str] of the [UnicodeEncodeError] of the ASCII codec for a text that
    has a character above 127. *)
Definition ascii_error (text : string) : string :=
  let start := ascii_prefix text in
  let bad := from_non_ascii text in
  let n := run_length bad in
  if (n =? 1)%Z then
    "'ascii' codec can't encode character '" ++ escaped (code_point bad)
      ++ "' in position " ++ Text.decimal start
      ++ ": ordinal not in range(128)"
  else
    "'ascii' codec can't encode characters in position " ++ Text.decimal start
      ++ "-" ++ Text.decimal (start + n - 1)
      ++ ": ordinal not in range(128)".

Fixpoint all_ascii (s : string) : bool :=
  match s with
  | EmptyString => true
  | String c rest => is_ascii c && all_ascii rest
  end.

(** [sys.stdout.write] on a stream in the ASCII encoding. *)
Definition ascii_stdout (text : string) : write_result :=
  if all_ascii text then Accepted else Unencodable (ascii_error text).

End Codec.

(* ===================================================================== *)
(** ** Worlds to run the programs in *)
(* ===================================================================== *)

Module Worlds.
Import Py.

(** A terminal in UTF-8: it takes every text, and the flush on the way out
    succeeds. *)
Definition on_terminal (os : trace -> list string -> spawn_result) : world :=
  {| spawn := os;
     stdout_write := fun _ => Accepted;
     stdout_isatty := true;
     exit_flush := true |}.

(** The tool runs and ends with the given return code, every time. *)
Definition tool_exits (returncode : Z) : world :=
  on_terminal (fun _ _ => Exited returncode).

(** The tool is not on the search path. *)
Definition tool_missing : world :=
  on_terminal (fun _ _ => ExecFailed ENOENT "No such file or directory").

(** The first attempt of the process ends with [first]; any later attempt
    would succeed. *)
Definition second_try_succeeds (first : spawn_result) : world :=
  on_terminal
    (fun t _ =>
       match popen_calls t with
       | [] => first
       | _ :: _ => Exited 0
       end).

(** The same world with standard output sent to a pipe or a file in the
    ASCII encoding. *)
Definition ascii_pipe (w : world) : world :=
  {| spawn := spawn w;
     stdout_write := Codec.ascii_stdout;
     stdout_isatty := false;
     exit_flush := exit_flush w |}.

(** The same world with standard output sent to a pipe or a file in
    UTF-8. *)
Definition utf8_pipe (w : world) : world :=
  {| spawn := spawn w;
     stdout_write := fun _ => Accepted;
     stdout_isatty := false;
     exit_flush := exit_flush w |}.

(** The same world, where the flush on the way out fails: standard output
    is a pipe whose reader has gone, or a disk that is full. *)
Definition flush_fails (w : world) : world :=
  {| spawn := spawn w;
     stdout_write := stdout_write w;
     stdout_isatty := stdout_isatty w;
     exit_flush := false |}.


End Worlds.


(* ===================================================================== *)
(** ** Facts about strings *)
(* ===================================================================== *)

Section TextFacts.
Import Text.

Lemma prefix_refl_append (s rest : string) : prefix s (s ++ rest) = true.
Proof.
  induction s as [| c s IH]; simpl.
  - now destruct rest.
  - destruct (ascii_dec c c) as [_ | ne]; [exact IH | now elim ne].
Qed.

Lemma prefix_split (s1 s2 : string) :
  prefix s1 s2 = true -> exists rest, s2 = s1 ++ rest.
Proof.
  revert s2; induction s1 as [| c s1 IH]; intros s2 H.
  - now exists s2.
  - destruct s2 as [| d s2]; simpl in H; [discriminate |].
    destruct (ascii_dec c d) as [-> | _]; [| discriminate].
    destruct (IH _ H) as [rest ->].
    now exists rest.
Qed.

Lemma contains_unfold (needle hay : string) :
  contains needle hay =
  prefix needle hay ||
  match hay with
  | EmptyString => false
  | String _ rest => contains needle rest
  end.
Proof. now destruct hay. Qed.

Lemma contains_here (needle rest : string) :
  contains needle (needle ++ rest) = true.
Proof. now rewrite contains_unfold, prefix_refl_append. Qed.

Lemma contains_later (needle : string) (c : ascii) (hay : string) :
  contains needle hay = true -> contains needle (String c hay) = true.
Proof.
  intros H. cbn [contains]. rewrite H. apply orb_true_r.
Qed.

(** A string occurs in whatever is built around it. *)
Lemma contains_infix (before needle after : string) :
  contains needle (before ++ needle ++ after) = true.
Proof.
  induction before as [| c before IH].
  - cbn [append]. apply contains_here.
  - cbn [append]. apply contains_later, IH.
Qed.

(** [contains] finds exactly the substrings. *)
Lemma contains_spec (needle hay : string) :
  contains needle hay = true <->
  exists before after, hay = before ++ needle ++ after.
Proof.
  split.
  - induction hay as [| c hay IH]; intros H;
      rewrite contains_unfold in H; apply orb_true_iff in H as [H | H];
      try discriminate;
      try (destruct (prefix_split _ _ H) as [rest E];
           now exists EmptyString, rest).
    destruct (IH H) as (before & after & ->).
    now exists (String c before), after.
  - intros (before & after & ->). apply contains_infix.
Qed.

Lemma join_pair (sep a b : string) : join sep [a; b] = a ++ sep ++ b.
Proof. reflexivity. Qed.

Lemma append_assoc (a b c : string) : (a ++ b) ++ c = a ++ b ++ c.
Proof. induction a as [| x a IH]; simpl; [| rewrite IH]; reflexivity. Qed.

Lemma append_empty_r (s : string) : s ++ EmptyString = s.
Proof. induction s as [| c s IH]; cbn [append]; now rewrite ?IH. Qed.

Lemma append_LF_not_empty (s : string) : s ++ LF <> EmptyString.
Proof. destruct s; discriminate. Qed.

End TextFacts.

(* ===================================================================== *)
(** ** Facts about the runtime *)
(* ===================================================================== *)

Section RuntimeFacts.
Import Py.

Lemma exc_class_eqb_eq (c d : exc_class) : exc_class_eqb c d = true <-> c = d.
Proof. destruct c, d; simpl; split; congruence. Qed.

Lemma issubclass_refl (c : exc_class) : issubclass c c = true.
Proof. now destruct c. Qed.

(** Every class derives from [BaseException]: four steps are enough. *)
Lemma issubclass_BaseException (c : exc_class) :
  issubclass c cls_BaseException = true.
Proof. now destruct c. Qed.

Lemma class_of_OSError (errno : Z) (strerror filename : string) :
  issubclass (class_of (OSError errno strerror filename)) cls_OSError = true.
Proof.
  unfold class_of.
  destruct (errno =? ENOENT)%Z; [reflexivity |].
  destruct ((errno =? EPERM) || (errno =? EACCES))%Z; reflexivity.
Qed.

(** No [OSError], whatever its error number, is a [CalledProcessError]. *)
Lemma OSError_not_CalledProcessError (errno : Z) (strerror filename : string) :
  isinstance (OSError errno strerror filename) cls_CalledProcessError = false.
Proof.
  unfold isinstance, class_of.
  destruct (errno =? ENOENT)%Z; [reflexivity |].
  destruct ((errno =? EPERM) || (errno =? EACCES))%Z; reflexivity.
Qed.

(** Nor is the exception of a failed write. *)
Lemma stream_error_not_CalledProcessError (e : exn) :
  is_stream_error e = true -> isinstance e cls_CalledProcessError = false.
Proof. destruct e; simpl; intros H; try discriminate H; reflexivity. Qed.

Lemma write_error_is_stream_error (r : write_result) (e : exn) :
  write_error r = Some e -> is_stream_error e = true.
Proof. destruct r; simpl; intros H; inversion H; reflexivity. Qed.

Lemma write_error_accepted (r : write_result) :
  write_error r = None <-> accepted r = true.
Proof. destruct r; simpl; split; intros H; congruence. Qed.

Lemma bind_ret_l {A B} (a : A) (k : A -> M B) w t :
  bind (ret a) k w t = k a w t.
Proof. reflexivity. Qed.

Lemma bind_ret_r {A} (m : M A) w t : bind m ret w t = m w t.
Proof. unfold bind, ret. now destruct (m w t) as [[a | e] t']. Qed.

Lemma bind_assoc {A B C} (m : M A) (k : A -> M B) (h : B -> M C) w t :
  bind (bind m k) h w t = bind m (fun a => bind (k a) h) w t.
Proof. unfold bind. now destruct (m w t) as [[a | e] t']. Qed.

Lemma bind_raise {A B} (e : exn) (k : A -> M B) w t :
  bind (raise e) k w t = (Raise e, t).
Proof. reflexivity. Qed.

Lemma try_except_returns {A} (a : A) cls (handler : exn -> M A) w t :
  try_except (ret a) cls handler w t = (Return a, t).
Proof. reflexivity. Qed.

Lemma try_except_caught {A} (e : exn) cls (handler : exn -> M A) w t :
  isinstance e cls = true ->
  try_except (raise e) cls handler w t = handler e w t.
Proof. intros C. unfold try_except, raise. now rewrite C. Qed.

Lemma try_except_passed {A} (e : exn) cls (handler : exn -> M A) w t :
  isinstance e cls = false ->
  try_except (raise e) cls handler w t = (Raise e, t).
Proof. intros C. unfold try_except, raise. now rewrite C. Qed.

Lemma stdout_of_app (t u : trace) :
  stdout_of (t ++ u)%list = (stdout_of t ++ stdout_of u)%list.
Proof.
  induction t as [| [args | text | e] t IH]; simpl; now rewrite ?IH.
Qed.

Lemma popen_calls_app (t u : trace) :
  popen_calls (t ++ u)%list = (popen_calls t ++ popen_calls u)%list.
Proof.
  induction t as [| [args | text | e] t IH]; simpl; now rewrite ?IH.
Qed.

Lemma stdout_of_map_Stdout (texts : list string) :
  stdout_of (map Stdout texts) = texts.
Proof. induction texts as [| x texts IH]; simpl; now rewrite ?IH. Qed.

Lemma popen_calls_map_Stdout (texts : list string) :
  popen_calls (map Stdout texts) = [].
Proof. induction texts as [| x texts IH]; simpl; now rewrite ?IH. Qed.

(** [call] starts one child, whatever becomes of it. *)
Lemma call_starts_one (args : list string) w t :
  popen_calls (snd (call args w t)) = (popen_calls t ++ [args])%list.
Proof.
  unfold call. destruct (w t args); simpl; now rewrite popen_calls_app.
Qed.

(** [check_call] returns only when the return code is 0. *)
Lemma check_call_returns (args : list string) w t v t' :
  check_call args w t = (Return v, t') ->
  w t args = Exited 0 /\ v = 0%Z /\ t' = (t ++ [Popen args])%list.
Proof.
  unfold check_call, bind, call.
  destruct (w t args) as [rc | errno msg]; [| discriminate].
  destruct (Z.eqb_spec rc 0) as [-> | _]; simpl; intros H; inversion H; auto.
Qed.

(** *** Writing *)

(** A call puts at most one text on the trace. *)
Lemma put_cases (t : trace) (written : string) :
  (written = EmptyString /\ put t written = t) \/
  (written <> EmptyString /\ put t written = (t ++ [Stdout written])%list).
Proof. destruct written; [left | right]; split; easy. Qed.

Lemma put_as_map (t : trace) (written : string) :
  exists printed : list string,
    put t written = (t ++ map Stdout printed)%list /\
    (printed = [] \/ printed = [written]).
Proof.
  destruct (put_cases t written) as [[_ ->] | [_ ->]].
  - exists []. split; [now rewrite app_nil_r | now left].
  - exists [written]. split; [reflexivity | now right].
Qed.

(** When every text is taken, the whole of them went through. *)
Lemma write_each_all (device : string -> write_result) (objects : list string) :
  forallb (fun text => accepted (device text)) (print_writes objects) = true ->
  write_each device (print_writes objects) =
    (Text.join " " objects ++ Text.LF, None).
Proof.
  induction objects as [| o rest IH]; [| destruct rest as [| o' rest]].
  - cbn [print_writes forallb write_each]. intros H.
    apply andb_true_iff in H as [H _]. apply write_error_accepted in H.
    now rewrite H.
  - cbn [print_writes forallb write_each]. intros H.
    apply andb_true_iff in H as [H1 H]. apply andb_true_iff in H as [H2 _].
    apply write_error_accepted in H1, H2. now rewrite H1, H2.
  - intros H. change (print_writes (o :: o' :: rest))
      with (o :: " " :: print_writes (o' :: rest)) in *.
    cbn [forallb] in H.
    apply andb_true_iff in H as [H1 H]. apply andb_true_iff in H as [H2 H].
    apply write_error_accepted in H1, H2.
    cbn [write_each]. rewrite H1, H2, (IH H).
    change (Text.join " " (o :: o' :: rest))
      with (o ++ " " ++ Text.join " " (o' :: rest)).
    now rewrite !append_assoc.
Qed.

(** What [write_each] reports agrees with what the stream takes, and a
    failure is the exception of a write. *)
Lemma write_each_failure (device : string -> write_result) (texts : list string) :
  match snd (write_each device texts) with
  | None => forallb (fun text => accepted (device text)) texts = true
  | Some e =>
      is_stream_error e = true /\
      forallb (fun text => accepted (device text)) texts = false
  end.
Proof.
  induction texts as [| text rest IH]; cbn [write_each forallb snd];
    [reflexivity |].
  destruct (write_error (device text)) as [e |] eqn:W.
  - cbn [snd]. split; [now apply write_error_is_stream_error in W |].
    destruct (accepted (device text)) eqn:A; [| reflexivity].
    apply write_error_accepted in A. congruence.
  - apply write_error_accepted in W. rewrite W.
    destruct (write_each device rest) as [written [e |]]; cbn [snd] in *;
      [| exact IH].
    now destruct IH.
Qed.

(** What went through starts with the first text, if anything went
    through. *)
Lemma write_each_starts (device : string -> write_result)
    (text : string) (rest : list string) :
  fst (write_each device (text :: rest)) = EmptyString \/
  exists more, fst (write_each device (text :: rest)) = text ++ more.
Proof.
  cbn [write_each]. destruct (write_error (device text)); [now left |].
  right. destruct (write_each device rest) as [written failure].
  now exists written.
Qed.

(** The stream sees only the device of the world. *)
Lemma write_each_ext (d1 d2 : string -> write_result) (texts : list string) :
  (forall text, d1 text = d2 text) ->
  write_each d1 texts = write_each d2 texts.
Proof.
  intros Same. induction texts as [| text rest IH]; cbn [write_each];
    [reflexivity |].
  now rewrite Same, IH.
Qed.

Lemma print_ext (objects : list string) (w1 w2 : world) (t : trace) :
  (forall text, stdout_write w1 text = stdout_write w2 text) ->
  print objects w1 t = print objects w2 t.
Proof.
  intros Same. unfold print.
  now rewrite (write_each_ext _ _ (print_writes objects) Same).
Qed.

(** [print] on a stream that takes its texts: the line is written and the
    call returns. *)
Lemma print_accepted (objects : list string) (w : world) (t : trace) :
  accepts w (print_writes objects) = true ->
  print objects w t =
    (Return tt, (t ++ [Stdout (Text.join " " objects ++ Text.LF)])%list).
Proof.
  intros A. unfold print. rewrite (write_each_all _ _ A).
  destruct (put_cases t (Text.join " " objects ++ Text.LF)) as [[E _] | [_ ->]];
    [| reflexivity].
  now apply append_LF_not_empty in E.
Qed.

(** [print] returns only if the stream took all of its texts. *)
Lemma print_returns (objects : list string) (w : world) (t t' : trace) (u : unit) :
  print objects w t = (Return u, t') ->
  accepts w (print_writes objects) = true.
Proof.
  unfold print, accepts.
  pose proof (write_each_failure (stdout_write w) (print_writes objects)) as F.
  destruct (write_each (stdout_write w) (print_writes objects))
    as [written [e |]]; cbn [snd] in F; [discriminate | now intros _].
Qed.

(** [print] raises only the exception of a write the stream did not take;
    it has then put on the trace at most one text, and that text starts
    with the first thing it had to write. *)
Lemma print_raises (objects : list string) (w : world) (t t' : trace) (e : exn) :
  print objects w t = (Raise e, t') ->
  is_stream_error e = true /\
  accepts w (print_writes objects) = false /\
  exists written,
    t' = put t written /\
    (written = EmptyString \/
     exists more, written = hd EmptyString (print_writes objects) ++ more).
Proof.
  unfold print, accepts.
  pose proof (write_each_failure (stdout_write w) (print_writes objects)) as F.
  assert (S : fst (write_each (stdout_write w) (print_writes objects)) = EmptyString \/
              exists more, fst (write_each (stdout_write w) (print_writes objects))
                           = hd EmptyString (print_writes objects) ++ more).
  { destruct (print_writes objects) as [| text rest]; [now left |].
    apply write_each_starts. }
  destruct (write_each (stdout_write w) (print_writes objects))
    as [written [e' |]]; cbn [fst snd] in *; intros H; inversion H; subst.
  destruct F as [F1 F2]. repeat split; [exact F1 | exact F2 |].
  now exists written.
Qed.

End RuntimeFacts.

(* ===================================================================== *)
(** ** The hook, case by case *)
(* ===================================================================== *)

Section HookFacts.
Import Py PostGenProject Report.

Variable str : exn -> string.

(** [main] after any history [t], as far as the question put to the
    world decides it: what is left is the [print] of the report. *)
Lemma main_from (w : world) (t : trace) :
  main str w t =
    match w t COMMAND with
    | Exited returncode =>
        if (returncode =? 0)%Z
        then print ["✅ pre-commit hooks installed"] w (t ++ [Popen COMMAND])%list
        else
          bind (print ["❌ pre-commit install failed:";
                       str (CalledProcessError returncode COMMAND)])
               (fun _ => sys_exit 1) w (t ++ [Popen COMMAND])%list
    | ExecFailed errno strerror =>
        (Raise (OSError errno strerror "pre-commit"), (t ++ [Popen COMMAND])%list)
    end.
Proof.
  cbv beta iota delta [main try_except bind check_call call].
  destruct (w t COMMAND) as [rc | errno msg]; cbv beta iota zeta.
  - destruct (rc =? 0)%Z; cbn [negb]; cbv beta iota delta [ret raise].
    + destruct (print ["✅ pre-commit hooks installed"] w (t ++ [Popen COMMAND])%list)
        as [[u | e] t'] eqn:P; [reflexivity |].
      apply print_raises in P as [S _].
      now rewrite (stream_error_not_CalledProcessError e S).
    + reflexivity.
  - cbn [hd COMMAND]. now rewrite OSError_not_CalledProcessError.
Qed.

(** The tool ran and returned 0, and standard output takes the line. *)
Lemma main_succeeded_printed (w : world) (t : trace) :
  w t COMMAND = Exited 0 -> takes_success w = true ->
  main str w t = (Return tt, (t ++ [Popen COMMAND; Stdout success_line])%list).
Proof.
  intros E A. rewrite main_from, E. cbn [Z.eqb].
  rewrite (print_accepted _ w _ A). now rewrite <- app_assoc.
Qed.

(** The tool ran and returned 0, and standard output does not take the
    line: the exception of the write leaves [main]. *)
Lemma main_succeeded_unprinted (w : world) (t : trace) :
  w t COMMAND = Exited 0 -> takes_success w = false ->
  exists e printed,
    main str w t = (Raise e, (t ++ Popen COMMAND :: map Stdout printed)%list) /\
    is_stream_error e = true /\
    (List.length printed <= 1)%nat.
Proof.
  intros E A. rewrite main_from, E. cbn [Z.eqb].
  destruct (print ["✅ pre-commit hooks installed"] w (t ++ [Popen COMMAND])%list)
    as [[u | e] t'] eqn:P.
  - apply print_returns in P. unfold takes_success in A. congruence.
  - apply print_raises in P as (S & _ & written & -> & _).
    destruct (put_as_map (t ++ [Popen COMMAND])%list written)
      as (printed & -> & [-> | ->]);
      exists e; eexists; rewrite <- app_assoc;
      (split; [reflexivity | split; [exact S | cbn; auto]]).
Qed.

(** The tool ran and returned something else: [check_call] raises, the
    handler reports and leaves through [sys.exit(1)]. *)
Lemma main_failed_reported (w : world) (t : trace) (returncode : Z) :
  w t COMMAND = Exited returncode -> returncode <> 0%Z ->
  takes_failure w (str (CalledProcessError returncode COMMAND)) = true ->
  main str w t =
    (Raise (SystemExit 1),
     (t ++ [Popen COMMAND;
            Stdout (failure_line (str (CalledProcessError returncode COMMAND)))])%list).
Proof.
  intros E NZ A. rewrite main_from, E.
  destruct (Z.eqb_spec returncode 0) as [Z0 | _]; [contradiction |].
  unfold bind. rewrite (print_accepted _ w _ A). cbv beta iota.
  unfold sys_exit, raise. now rewrite <- app_assoc.
Qed.

(** The same, on a standard output that does not take the report: the
    exception of the write leaves [main] before [sys.exit] is reached, and
    what was written, if anything, starts like the report. *)
Lemma main_failed_unreported (w : world) (t : trace) (returncode : Z) :
  w t COMMAND = Exited returncode -> returncode <> 0%Z ->
  takes_failure w (str (CalledProcessError returncode COMMAND)) = false ->
  exists e printed,
    main str w t = (Raise e, (t ++ Popen COMMAND :: map Stdout printed)%list) /\
    is_stream_error e = true /\
    (List.length printed <= 1)%nat /\
    Forall (fun text => success_marked text = false) printed.
Proof.
  intros E NZ A. rewrite main_from, E.
  destruct (Z.eqb_spec returncode 0) as [Z0 | _]; [contradiction |].
  unfold bind.
  destruct (print ["❌ pre-commit install failed:";
                   str (CalledProcessError returncode COMMAND)]
              w (t ++ [Popen COMMAND])%list) as [[u | e] t'] eqn:P.
  - apply print_returns in P. unfold takes_failure in A. congruence.
  - apply print_raises in P as (S & _ & written & -> & Start).
    destruct (put_cases (t ++ [Popen COMMAND])%list written) as [[_ ->] | [Ne ->]].
    + exists e, [].
      repeat split; [exact S | cbn; auto | constructor].
    + exists e, [written]. rewrite <- app_assoc.
      repeat split; [exact S | cbn; auto |].
      constructor; [| constructor].
      destruct Start as [-> | [more ->]]; [now elim Ne | reflexivity].
Qed.

(** The tool could not be run: the [OSError] of [Popen] passes the
    handler, which is for [CalledProcessError] only. *)
Lemma main_exec_failed (w : world) (t : trace) (errno : Z) (strerror : string) :
  w t COMMAND = ExecFailed errno strerror ->
  main str w t =
    (Raise (OSError errno strerror "pre-commit"), (t ++ [Popen COMMAND])%list).
Proof. intros E. now rewrite main_from, E. Qed.

(** *** The process *)

Lemma leave_1_not_0 (w : world) : leave w 1 <> 0%Z.
Proof. unfold leave. destruct (exit_flush w); discriminate. Qed.

Lemma leave_flushed (w : world) (status : Z) :
  exit_flush w = true -> leave w status = (status mod 256)%Z.
Proof. intros F. unfold leave. now rewrite F. Qed.

(** An exception of a write that leaves the script ends it with a
    traceback. *)
Lemma run_script_stream_error (body : M unit) (w : world) (e : exn) (t : trace) :
  body w [] = (Raise e, t) -> is_stream_error e = true ->
  run_script body w = ((t ++ [Traceback e])%list, leave w 1).
Proof.
  intros B S. unfold run_script. rewrite B.
  destruct e; try discriminate S; reflexivity.
Qed.

Lemma script_succeeded_printed (w : world) :
  w [] COMMAND = Exited 0 -> takes_success w = true ->
  script str w = ([Popen COMMAND; Stdout success_line], leave w 0).
Proof.
  intros E A. unfold script, run_script.
  now rewrite (main_succeeded_printed w [] E A).
Qed.

Lemma script_succeeded_unprinted (w : world) :
  w [] COMMAND = Exited 0 -> takes_success w = false ->
  exists e printed,
    script str w =
      ((Popen COMMAND :: map Stdout printed ++ [Traceback e])%list, leave w 1) /\
    is_stream_error e = true /\
    (List.length printed <= 1)%nat.
Proof.
  intros E A.
  destruct (main_succeeded_unprinted w [] E A) as (e & printed & M & S & L).
  exists e, printed. split; [| now split].
  unfold script. now rewrite (run_script_stream_error _ w e _ M S).
Qed.

Lemma script_failed_reported (w : world) (returncode : Z) :
  w [] COMMAND = Exited returncode -> returncode <> 0%Z ->
  takes_failure w (str (CalledProcessError returncode COMMAND)) = true ->
  script str w =
    ([Popen COMMAND;
      Stdout (failure_line (str (CalledProcessError returncode COMMAND)))],
     leave w 1).
Proof.
  intros E NZ A. unfold script, run_script.
  now rewrite (main_failed_reported w [] returncode E NZ A).
Qed.

Lemma script_failed_unreported (w : world) (returncode : Z) :
  w [] COMMAND = Exited returncode -> returncode <> 0%Z ->
  takes_failure w (str (CalledProcessError returncode COMMAND)) = false ->
  exists e printed,
    script str w =
      ((Popen COMMAND :: map Stdout printed ++ [Traceback e])%list, leave w 1) /\
    is_stream_error e = true /\
    (List.length printed <= 1)%nat /\
    Forall (fun text => success_marked text = false) printed.
Proof.
  intros E NZ A.
  destruct (main_failed_unreported w [] returncode E NZ A)
    as (e & printed & M & S & L & F).
  exists e, printed. split; [| now repeat split].
  unfold script. now rewrite (run_script_stream_error _ w e _ M S).
Qed.

Lemma script_exec_failed (w : world) (errno : Z) (strerror : string) :
  w [] COMMAND = ExecFailed errno strerror ->
  script str w =
    ([Popen COMMAND; Traceback (OSError errno strerror "pre-commit")], leave w 1).
Proof.
  intros E. unfold script, run_script.
  now rewrite (main_exec_failed w [] errno strerror E).
Qed.


Lemma failure_line_not_success (detail : string) :
  success_marked (failure_line detail) = false.
Proof. reflexivity. Qed.


(** When the tool ran, standard output took the report and the flush on
    the way out succeeded, the run shows exactly one of the two outcomes. *)
Lemma tool_ran_one_outcome (w : world) (returncode : Z) :
  w [] COMMAND = Exited returncode ->
  takes_success w = true ->
  takes_failure w (str (CalledProcessError returncode COMMAND)) = true ->
  exit_flush w = true ->
  xorb (success_outcome (script str w)) (failure_outcome (script str w)) = true.
Proof.
  intros E A1 A2 F. destruct (Z.eq_dec returncode 0) as [-> | NZ].
  - rewrite (script_succeeded_printed w E A1), (leave_flushed w 0 F).
    reflexivity.
  - rewrite (script_failed_reported w returncode E NZ A2), (leave_flushed w 1 F).
    reflexivity.
Qed.

End HookFacts.

(* ===================================================================== *)
(** ** The specification, claim by claim *)
(* ===================================================================== *)

Section Claims.
Import Py PostGenProject Report Worlds.

(** Texts that do not carry the success mark are no success message. *)
Lemma unmarked_no_success (printed : list string) :
  Forall (fun text => success_marked text = false) printed ->
  existsb success_marked printed = false /\ ~ In success_line printed.
Proof.
  induction 1 as [| text printed N _ [IH1 IH2]]; [split; [reflexivity | intros []] |].
  split.
  - cbn [existsb]. now rewrite N, IH1.
  - intros [H | H]; [rewrite H in N; discriminate N | now apply IH2].
Qed.

Lemma stdout_of_failed_run (c : list string) (printed : list string) (e : exn) :
  stdout_of (Popen c :: map Stdout printed ++ [Traceback e])%list = printed.
Proof.
  cbn [stdout_of]. rewrite stdout_of_app, stdout_of_map_Stdout.
  apply app_nil_r.
Qed.

Lemma popen_calls_failed_run (c : list string) (printed : list string) (e : exn) :
  popen_calls (Popen c :: map Stdout printed ++ [Traceback e])%list = [c].
Proof.
  cbn [popen_calls]. now rewrite popen_calls_app, popen_calls_map_Stdout.
Qed.

(** C4, as amended.  When the tool ends with status 0, standard output
    takes the success line and the flush on the way out succeeds, [main]
    starts the tool, prints the success line and nothing else, and returns
    normally; the process then exits with status 0. *)
Theorem C4_success_reported (str : exn -> string) (w : world) :
  w [] COMMAND = Exited 0 ->
  takes_success w = true ->
  exit_flush w = true ->
  main str w [] = (Return tt, [Popen COMMAND; Stdout success_line]) /\
  stdout_of (fst (script str w)) = [success_line] /\
  success_marked success_line = true /\
  snd (script str w) = 0%Z.
Proof.
  intros E A F. split; [now apply main_succeeded_printed |].
  rewrite (script_succeeded_printed str w E A), (leave_flushed w 0 F).
  repeat split.
Qed.

Lemma C4_success_reported_witness :
  (tool_exits 0 [] COMMAND = Exited 0 /\
   takes_success (tool_exits 0) = true /\
   exit_flush (tool_exits 0) = true) /\
  (main Rendering.cpython (tool_exits 0) [] =
     (Return tt, [Popen COMMAND; Stdout success_line]) /\
   stdout_of (fst (script Rendering.cpython (tool_exits 0))) = [success_line] /\
   success_marked success_line = true /\
   snd (script Rendering.cpython (tool_exits 0)) = 0%Z).
Proof.
  split; [repeat split |].
  apply (C4_success_reported Rendering.cpython (tool_exits 0)); reflexivity.
Defined.

(** C4, as it was stated, fails.  The tool ends with status 0 in both
    worlds.  On a standard output in the ASCII encoding the write of the
    success mark raises [UnicodeEncodeError], which the handler does not
    name: nothing is printed and the process exits with status 1.  Where
    the flush on the way out fails the process exits with status 120. *)
Lemma C4_counterexample :
  (ascii_pipe (tool_exits 0) [] COMMAND = Exited 0 /\
   stdout_of (fst (script Rendering.cpython (ascii_pipe (tool_exits 0)))) = [] /\
   snd (script Rendering.cpython (ascii_pipe (tool_exits 0))) = 1%Z /\
   fst (main Rendering.cpython (ascii_pipe (tool_exits 0)) []) <> Return tt) /\
  (flush_fails (tool_exits 0) [] COMMAND = Exited 0 /\
   snd (script Rendering.cpython (flush_fails (tool_exits 0))) = 120%Z).
Proof.
  split; [| split; reflexivity].
  split; [reflexivity |]. split; [reflexivity |]. split; [reflexivity |].
  vm_compute. discriminate.
Qed.




(** C5. When the installation failed, be it that the tool ended with a
    status other than 0 or that it could not be run at all, the process
    does not exit with status 0 and nothing written to standard output
    carries the success mark. *)
Theorem C5_failure_never_looks_like_success (str : exn -> string) (w : world) :
  installation_succeeded (w [] COMMAND) = false ->
  snd (script str w) <> 0%Z /\
  existsb success_marked (stdout_of (fst (script str w))) = false /\
  ~ In success_line (stdout_of (fst (script str w))).
Proof.
  intros F. destruct (w [] COMMAND) as [rc | errno msg] eqn:E.
  - simpl in F. apply Z.eqb_neq in F.
    destruct (takes_failure w (str (CalledProcessError rc COMMAND))) eqn:A.
    + rewrite (script_failed_reported str w rc E F A). cbn [fst snd stdout_of].
      split; [apply leave_1_not_0 |]. split; [reflexivity |].
      intros [H | []].
      pose proof (failure_line_not_success (str (CalledProcessError rc COMMAND))) as N.
      rewrite H in N. discriminate N.
    + destruct (script_failed_unreported str w rc E F A)
        as (e & printed & -> & _ & _ & U).
      cbn [fst snd]. rewrite stdout_of_failed_run.
      split; [apply leave_1_not_0 | now apply unmarked_no_success].
  - rewrite (script_exec_failed str w errno msg E). cbn [fst snd stdout_of].
    split; [apply leave_1_not_0 |]. split; [reflexivity |]. intros [].
Qed.

Lemma C5_failure_never_looks_like_success_witness :
  installation_succeeded (tool_missing [] COMMAND) = false /\
  (snd (script Rendering.cpython tool_missing) <> 0%Z /\
   existsb success_marked
     (stdout_of (fst (script Rendering.cpython tool_missing))) = false /\
   ~ In success_line (stdout_of (fst (script Rendering.cpython tool_missing)))).
Proof.
  split; [reflexivity |].
  apply (C5_failure_never_looks_like_success Rendering.cpython tool_missing).
  reflexivity.
Defined.

(** C6, as amended.  When the flush on the way out succeeds, the exit
    status of the process is 1 when the installation failed, whether the
    tool ended with a status other than 0 or could not be run, and 0 when
    it succeeded and standard output took the success line. *)
Theorem C6_exit_status (str : exn -> string) (w : world) :
  exit_flush w = true ->
  (installation_succeeded (w [] COMMAND) = true -> takes_success w = true) ->
  snd (script str w) =
    if installation_succeeded (w [] COMMAND) then 0%Z else 1%Z.
Proof.
  intros F A. revert A. case_eq (w [] COMMAND).
  - intros rc E. simpl. destruct (Z.eqb_spec rc 0) as [Z0 | NZ]; intros A.
    + subst rc. rewrite (script_succeeded_printed str w E (A eq_refl)).
      apply (leave_flushed w 0 F).
    + destruct (takes_failure w (str (CalledProcessError rc COMMAND))) eqn:T.
      * rewrite (script_failed_reported str w rc E NZ T).
        apply (leave_flushed w 1 F).
      * destruct (script_failed_unreported str w rc E NZ T) as (e & printed & -> & _).
        apply (leave_flushed w 1 F).
  - intros errno msg E _. rewrite (script_exec_failed str w errno msg E).
    apply (leave_flushed w 1 F).
Qed.

Lemma C6_exit_status_witness :
  (exit_flush (tool_exits 0) = true /\
   (installation_succeeded (tool_exits 0 [] COMMAND) = true ->
    takes_success (tool_exits 0) = true)) /\
  snd (script Rendering.cpython (tool_exits 0)) =
    if installation_succeeded (tool_exits 0 [] COMMAND) then 0%Z else 1%Z.
Proof.
  split; [split; [reflexivity | intros _; reflexivity] |].
  apply (C6_exit_status Rendering.cpython (tool_exits 0));
    [reflexivity | intros _; reflexivity].
Defined.

(** C6, as it was stated, fails.  The installation succeeded and the
    process exits with status 1, standard output being in the ASCII
    encoding; the installation failed and the process exits with status
    120, the flush on the way out failing. *)
Lemma C6_counterexample :
  (installation_succeeded (ascii_pipe (tool_exits 0) [] COMMAND) = true /\
   snd (script Rendering.cpython (ascii_pipe (tool_exits 0))) = 1%Z) /\
  (installation_succeeded (flush_fails tool_missing [] COMMAND) = false /\
   snd (script Rendering.cpython (flush_fails tool_missing)) = 120%Z).
Proof. repeat split. Qed.

(** C7. In every world the process starts exactly one child, with the
    arguments [pre-commit install --install-hooks]; the program name has
    no slash, so it is looked up on the search path.  This holds after a
    failure too: the hook does not try again. *)
Theorem C7_one_invocation (str : exn -> string) (w : world) :
  popen_calls (fst (script str w)) =
    [["pre-commit"; "install"; "--install-hooks"]] /\
  searched_on_path (hd EmptyString COMMAND) = true.
Proof.
  split; [| reflexivity].
  destruct (w [] COMMAND) as [rc | errno msg] eqn:E.
  - destruct (Z.eq_dec rc 0) as [-> | NZ].
    + destruct (takes_success w) eqn:A.
      * now rewrite (script_succeeded_printed str w E A).
      * destruct (script_succeeded_unprinted str w E A) as (e & printed & -> & _).
        apply popen_calls_failed_run.
    + destruct (takes_failure w (str (CalledProcessError rc COMMAND))) eqn:A.
      * now rewrite (script_failed_reported str w rc E NZ A).
      * destruct (script_failed_unreported str w rc E NZ A)
          as (e & printed & -> & _).
        apply popen_calls_failed_run.
  - now rewrite (script_exec_failed str w errno msg E).
Qed.

(** The exit status and the trace of a script depend on the world only
    through what its body does and the flush on the way out. *)
Lemma run_script_ext (body1 body2 : M unit) (w1 w2 : world) :
  body1 w1 [] = body2 w2 [] -> exit_flush w1 = exit_flush w2 ->
  run_script body1 w1 = run_script body2 w2.
Proof. intros B F. unfold run_script, leave. now rewrite B, F. Qed.

(** C10, as amended.  Two runs in which the installation command ends the
    same way, the exception of a failed command is rendered alike,
    standard output treats every text alike and the flush on the way out
    ends alike, show the same trace, so the same messages, and the same
    exit status, however else the two worlds differ. *)
Theorem C10_deterministic (str1 str2 : exn -> string) (w1 w2 : world) :
  w1 [] COMMAND = w2 [] COMMAND ->
  (forall returncode,
     w1 [] COMMAND = Exited returncode ->
     str1 (CalledProcessError returncode COMMAND) =
     str2 (CalledProcessError returncode COMMAND)) ->
  (forall text, stdout_write w1 text = stdout_write w2 text) ->
  exit_flush w1 = exit_flush w2 ->
  script str1 w1 = script str2 w2.
Proof.
  intros Same Str Out Flush. apply run_script_ext; [| exact Flush].
  rewrite !main_from, <- Same.
  destruct (w1 [] COMMAND) as [rc | errno msg]; [| reflexivity].
  destruct (rc =? 0)%Z.
  - now apply print_ext.
  - unfold bind. rewrite (Str rc eq_refl).
    now rewrite (print_ext _ w1 w2 _ Out).
Qed.

Lemma C10_deterministic_witness :
  (tool_exits 1 [] COMMAND = utf8_pipe (second_try_succeeds (Exited 1)) [] COMMAND /\
   (forall returncode,
      tool_exits 1 [] COMMAND = Exited returncode ->
      Rendering.cpython (CalledProcessError returncode COMMAND) =
      Rendering.str (fun _ => None) (CalledProcessError returncode COMMAND)) /\
   (forall text,
      stdout_write (tool_exits 1) text =
      stdout_write (utf8_pipe (second_try_succeeds (Exited 1))) text) /\
   exit_flush (tool_exits 1) =
   exit_flush (utf8_pipe (second_try_succeeds (Exited 1)))) /\
  script Rendering.cpython (tool_exits 1) =
    script (Rendering.str (fun _ => None))
      (utf8_pipe (second_try_succeeds (Exited 1))).
Proof.
  assert (R : forall returncode,
            tool_exits 1 [] COMMAND = Exited returncode ->
            Rendering.cpython (CalledProcessError returncode COMMAND) =
            Rendering.str (fun _ => None) (CalledProcessError returncode COMMAND)).
  { intros returncode H. injection H as <-. reflexivity. }
  split; [repeat split; exact R |].
  apply (C10_deterministic Rendering.cpython (Rendering.str (fun _ => None))
           (tool_exits 1) (utf8_pipe (second_try_succeeds (Exited 1))));
    [reflexivity | exact R | reflexivity | reflexivity].
Defined.

(** C10, as it was stated, fails.  The tool ends with status 0 in both
    runs; one has a standard output that takes the success mark and the
    other has not, and they print and exit differently. *)
Lemma C10_counterexample :
  tool_exits 0 [] COMMAND = ascii_pipe (tool_exits 0) [] COMMAND /\
  script Rendering.cpython (tool_exits 0) <>
  script Rendering.cpython (ascii_pipe (tool_exits 0)) /\
  snd (script Rendering.cpython (tool_exits 0)) <>
  snd (script Rendering.cpython (ascii_pipe (tool_exits 0))).
Proof.
  split; [reflexivity |]. split; vm_compute; discriminate.
Qed.

End Claims.

(* ===================================================================== *)
(** ** The tool that is not there *)
(* ===================================================================== *)

Section ToolMissing.
Import Py PostGenProject Report Worlds.

(** C1, where the code departs from it.  With [pre-commit] missing from
    the search path the run shows neither of the two outcomes: nothing is
    written to standard output, so there is no failure message to go with
    the exit status 1, and no success either. *)
Theorem C1_tool_missing_neither_outcome :
  success_outcome (script Rendering.cpython tool_missing) = false /\
  failure_outcome (script Rendering.cpython tool_missing) = false /\
  stdout_of (fst (script Rendering.cpython tool_missing)) = [] /\
  snd (script Rendering.cpython tool_missing) = 1%Z.
Proof.
  rewrite (script_exec_failed Rendering.cpython tool_missing
             ENOENT "No such file or directory" eq_refl).
  repeat split.
Qed.

(** C2, where the code departs from it.  With [pre-commit] missing,
    [Popen] raises a [FileNotFoundError]; it is no [CalledProcessError], so
    it leaves [main] unhandled and the interpreter ends the process with a
    traceback.  Scenario B, the tool ending with status 1, prints the
    failure line instead: the two runs are not alike. *)
Theorem C2_tool_missing_unhandled :
  main Rendering.cpython tool_missing [] =
    (Raise (OSError ENOENT "No such file or directory" "pre-commit"),
     [Popen COMMAND]) /\
  class_of (OSError ENOENT "No such file or directory" "pre-commit") =
    cls_FileNotFoundError /\
  issubclass cls_FileNotFoundError cls_CalledProcessError = false /\
  script Rendering.cpython tool_missing =
    ([Popen COMMAND;
      Traceback (OSError ENOENT "No such file or directory" "pre-commit")],
     1%Z) /\
  existsb failure_marked
    (stdout_of (fst (script Rendering.cpython tool_missing))) = false /\
  existsb failure_marked
    (stdout_of (fst (script Rendering.cpython (tool_exits 1)))) = true.
Proof.
  split; [now apply main_exec_failed |].
  split; [reflexivity |]. split; [reflexivity |].
  split; [now apply script_exec_failed |].
  split; vm_compute; reflexivity.
Qed.

(** Scenario B in full: the line the hook prints when the tool ends with
    status 1. *)
Example scenario_B :
  script Rendering.cpython (tool_exits 1) =
    ([Popen COMMAND;
      Stdout ("❌ pre-commit install failed: Command '['pre-commit', 'install', '--install-hooks']' returned non-zero exit status 1."
              ++ Text.LF)],
     1%Z).
Proof. reflexivity. Qed.

(** The hook gives up after the first failure even where a second attempt
    would have succeeded. *)
Example gives_up_after_first_failure :
  script Rendering.cpython (second_try_succeeds (Exited 1)) =
    script Rendering.cpython (tool_exits 1).
Proof. reflexivity. Qed.

(** A tool killed by a signal is a failure like any other. *)
Example killed_by_signal :
  stdout_of (fst (script Rendering.cpython (tool_exits (-9)))) =
    ["❌ pre-commit install failed: Command '['pre-commit', 'install', '--install-hooks']' died with <Signals.SIGKILL: 9>."
     ++ Text.LF].
Proof. reflexivity. Qed.

(** The run on a standard output in the ASCII encoding, the tool ending
    with status 0: the traceback of the write that failed. *)
Example success_on_ascii_stdout :
  script Rendering.cpython (ascii_pipe (tool_exits 0)) =
    ([Popen COMMAND;
      Traceback (UnicodeEncodeError
        "'ascii' codec can't encode character '\u2705' in position 0: ordinal not in range(128)")],
     1%Z).
Proof. reflexivity. Qed.

End ToolMissing.

(* ===================================================================== *)
(** ** Escape sequences *)
(* ===================================================================== *)

Section ClickFacts.
Import Click.


(** What is stripped has no more characters than the text. *)
Lemma strip_from_length (s : string) (skip : nat) :
  (String.length (strip_from skip s) <= String.length s)%nat.
Proof.
  revert skip. induction s as [| c s IH]; intros skip; [apply le_n |].
  cbn [strip_from String.length].
  destruct skip as [| k]; [| apply Nat.le_le_succ_r, IH].
  destruct (is_ESC c);
    [destruct (sequence_length s) |];
    [apply Nat.le_le_succ_r, IH | |]; cbn [String.length];
    apply le_n_S, IH.
Qed.

Section Closing.

(** A character that neither continues nor ends nor starts an escape
    sequence. *)
Variable c : ascii.
Hypothesis not_letter : is_letter c = false.
Hypothesis not_parameter : is_parameter c = false.
Hypothesis not_bracket : Ascii.eqb c "["%char = false.
Hypothesis not_ESC : is_ESC c = false.




End Closing.

End ClickFacts.

(* ===================================================================== *)
(** ** The greeting and its command *)
(* ===================================================================== *)

Section Greeting.
Import Py ProjectMain MyCli Worlds.

Lemma fstring_app (ps qs : list fpart) :
  fstring (ps ++ qs)%list = fstring ps ++ fstring qs.
Proof.
  induction ps as [| [text | value] ps IH]; cbn [fstring app append];
    [reflexivity | |]; now rewrite IH, append_assoc.
Qed.

(** C8. [greet] puts the name between [Hello, ] and an exclamation mark,
    for every name; for [Developer] this is the string the test of the
    repository expects. *)
Theorem C8_greet (name : string) :
  greet name = "Hello, " ++ name ++ "!" /\
  greet "Developer" = "Hello, Developer!" /\
  TestMain.test_greet = true.
Proof. repeat split. Qed.






Lemma greet_length (name : string) :
  String.length (greet name) = (String.length name + 8)%nat.
Proof.
  unfold greet. cbn [fstring append String.length].
  induction name as [| c name IH]; cbn [append String.length]; [reflexivity |].
  now rewrite IH.
Qed.

End Greeting.

(* ===================================================================== *)
(** ** Further properties of the greeting *)
(* ===================================================================== *)

Section GreetingMore.
Import Py ProjectMain.

(** Two strings that agree once the same character is put after them
    agree. *)
Lemma append_char_inj (c : ascii) (a b : string) :
  a ++ String c EmptyString = b ++ String c EmptyString -> a = b.
Proof.
  revert b; induction a as [| x a IH]; intros [| y b] H; cbn [append] in H.
  - reflexivity.
  - injection H as _ H. destruct b; discriminate H.
  - injection H as _ H. destruct a; discriminate H.
  - injection H as -> H. f_equal. now apply IH.
Qed.

Lemma length_append (a b : string) :
  String.length (a ++ b) = (String.length a + String.length b)%nat.
Proof. induction a as [| x a IH]; cbn [append String.length]; now rewrite ?IH. Qed.

(** X1. [greet] loses nothing of the name: two names with the same greeting
    are the same name. *)
Theorem X1_greet_injective (name1 name2 : string) :
  greet name1 = greet name2 -> name1 = name2.
Proof.
  unfold greet. cbn [fstring append]. intros H.
  injection H as H. now apply append_char_inj in H.
Qed.

Lemma X1_greet_injective_witness :
  greet "World" = greet "World" /\ "World" = "World".
Proof.
  split; [reflexivity |].
  apply (X1_greet_injective "World" "World"). reflexivity.
Defined.

(** X2. Whatever the name, the empty one included, the greeting is the name
    with eight characters around it: it starts with [Hello, ], has the name
    in it unchanged, and is never empty. *)
Theorem X2_greet_shape (name : string) :
  String.length (greet name) = (String.length name + 8)%nat /\
  prefix "Hello, " (greet name) = true /\
  Text.contains name (greet name) = true /\
  greet name <> EmptyString.
Proof.
  split; [apply greet_length |].
  change (greet name) with ("Hello, " ++ name ++ "!").
  split; [apply prefix_refl_append |].
  split; [apply contains_infix | discriminate].
Qed.

End GreetingMore.

(* ===================================================================== *)
(** ** The other commands *)
(* ===================================================================== *)

Section Commands.
Import Py ProjectMain PackageCli Worlds.

(** On a standard output that takes its text, [minimal] adds one line to
    what was printed before, [Item: ] and the item as it was given. *)
Lemma minimal_prints_item (item : string) (w : world) (t : trace) :
  accepts w (print_writes [("Item: " ++ item)%string]) = true ->
  minimal item w t =
    (Return tt, (t ++ [Stdout ("Item: " ++ item ++ Text.LF)])%list).
Proof.
  intros A. unfold minimal. cbn [fstring append] in *.
  rewrite append_empty_r in *. now rewrite (print_accepted _ w t A).
Qed.

(** [main.py] run as a script on a terminal greets the world and exits
    with status 0. *)
Example main_py_as_script :
  ProjectMainScript.script (tool_exits 0) =
    ([Stdout ("Hello, World!" ++ Text.LF)], 0%Z).
Proof. reflexivity. Qed.

End Commands.

(* ===================================================================== *)
(** ** [main] of the hook as a function that others may call *)
(* ===================================================================== *)

Section MainCalled.
Import Py PostGenProject Report Worlds.

(** X4. After any history, [main] returns normally exactly when the tool
    ran and ended with status 0 and standard output took the success line;
    in every other case it leaves by an exception. *)
Theorem X4_main_returns_iff_tool_succeeded
    (str : exn -> string) (w : world) (t : trace) :
  fst (main str w t) = Return tt <->
  (w t COMMAND = Exited 0 /\ takes_success w = true).
Proof.
  split.
  - rewrite main_from.
    destruct (w t COMMAND) as [rc | errno msg]; [| discriminate].
    destruct (Z.eqb_spec rc 0) as [-> | NZ].
    + destruct (print ["✅ pre-commit hooks installed"] w (t ++ [Popen COMMAND])%list)
        as [[u | e] t'] eqn:P; [| discriminate].
      intros _. split; [reflexivity |]. now apply print_returns in P.
    + unfold bind.
      destruct (print _ w (t ++ [Popen COMMAND])%list) as [[u | e] t'];
        discriminate.
  - intros [E A]. now rewrite (main_succeeded_printed str w t E A).
Qed.

(** X5. Of the exceptions that leave [main]: none is a
    [CalledProcessError]; a [SystemExit] has code 1 and comes after the
    tool ended with a status other than 0; an [OSError] with a file name
    names [pre-commit] and comes from a tool that could not be run; the
    exception of a write to standard output comes after the tool has
    run. *)
Theorem X5_exceptions_leaving_main
    (str : exn -> string) (w : world) (t : trace) (e : exn) :
  fst (main str w t) = Raise e ->
  isinstance e cls_CalledProcessError = false /\
  match e with
  | CalledProcessError _ _ => False
  | SystemExit code =>
      code = 1%Z /\
      exists returncode, w t COMMAND = Exited returncode /\ returncode <> 0%Z
  | OSError errno strerror filename =>
      filename = "pre-commit" /\ w t COMMAND = ExecFailed errno strerror
  | UnicodeEncodeError _ | StreamError _ _ =>
      exists returncode, w t COMMAND = Exited returncode
  end.
Proof.
  rewrite main_from.
  destruct (w t COMMAND) as [rc | errno msg].
  - assert (S : forall e', is_stream_error e' = true ->
                isinstance e' cls_CalledProcessError = false /\
                match e' with
                | CalledProcessError _ _ => False
                | SystemExit code =>
                    code = 1%Z /\
                    exists returncode, Exited rc = Exited returncode /\
                                       returncode <> 0%Z
                | OSError errno strerror filename =>
                    filename = "pre-commit" /\ Exited rc = ExecFailed errno strerror
                | UnicodeEncodeError _ | StreamError _ _ =>
                    exists returncode, Exited rc = Exited returncode
                end).
    { intros e' S. split; [now apply stream_error_not_CalledProcessError |].
      destruct e'; try discriminate S; now exists rc. }
    destruct (Z.eqb_spec rc 0) as [-> | NZ].
    + destruct (print ["✅ pre-commit hooks installed"] w (t ++ [Popen COMMAND])%list)
        as [[u | e'] t'] eqn:P; cbn [fst]; intros H; [discriminate H |].
      injection H as <-. apply S. now apply print_raises in P.
    + unfold bind.
      destruct (print _ w (t ++ [Popen COMMAND])%list) as [[u | e'] t'] eqn:P;
        cbn [fst]; intros H; injection H as <-.
      * split; [reflexivity |]. split; [reflexivity |]. now exists rc.
      * apply S. now apply print_raises in P.
  - cbn [fst]. intros H. injection H as <-.
    split; [apply OSError_not_CalledProcessError | now split].
Qed.

Lemma X5_exceptions_leaving_main_witness :
  fst (main Rendering.cpython tool_missing []) =
    Raise (OSError ENOENT "No such file or directory" "pre-commit") /\
  (isinstance (OSError ENOENT "No such file or directory" "pre-commit")
     cls_CalledProcessError = false /\
   ("pre-commit" = "pre-commit" /\
    tool_missing [] COMMAND = ExecFailed ENOENT "No such file or directory")).
Proof.
  split; [reflexivity |].
  apply (X5_exceptions_leaving_main Rendering.cpython tool_missing []
           (OSError ENOENT "No such file or directory" "pre-commit")).
  reflexivity.
Defined.

(** X6. A call of [main] keeps the events that came before it and adds to
    them, first the start of the tool and then at most one line on standard
    output; it starts no second process and prints nothing before the tool
    has ended. *)
Theorem X6_main_appends (str : exn -> string) (w : world) (t : trace) :
  exists printed : list string,
    snd (main str w t) = (t ++ Popen COMMAND :: map Stdout printed)%list /\
    (List.length printed <= 1)%nat.
Proof.
  destruct (w t COMMAND) as [rc | errno msg] eqn:E.
  - destruct (Z.eq_dec rc 0) as [-> | NZ].
    + destruct (takes_success w) eqn:A.
      * rewrite (main_succeeded_printed str w t E A).
        exists [success_line]. split; [reflexivity | apply le_n].
      * destruct (main_succeeded_unprinted str w t E A)
          as (e & printed & -> & _ & L).
        now exists printed.
    + destruct (takes_failure w (str (CalledProcessError rc COMMAND))) eqn:A.
      * rewrite (main_failed_reported str w t rc E NZ A).
        eexists [_]. split; [reflexivity | apply le_n].
      * destruct (main_failed_unreported str w t rc E NZ A)
          as (e & printed & -> & _ & L & _).
        now exists printed.
  - rewrite (main_exec_failed str w t errno msg E).
    exists []. split; [reflexivity | apply Nat.le_0_l].
Qed.

End MainCalled.
